(** * nwcsafpps_runner.utils: scene identities, readiness, command
      construction, output discovery and publishing

    A shallow embedding of [nwcsafpps_runner/utils.py].  Python values that
    travel in message, scene and option dictionaries are [pyval]s, dictionaries
    are [gmap string pyval], exceptions are an explicit [outcome], and the
    collaborators outside the repository (the file system, the resolver, the
    trollsift parser, the outgoing queue, the time-control converter) are
    records of functions handed to the operation that calls them. *)

From Stdlib Require Import ZArith List Ascii String Lia.
From stdpp Require Import gmap strings list fin_maps pretty.

Local Open Scope Z_scope.

(* ================================================================== *)
(** ** Exceptions and outcomes *)
(* ================================================================== *)

Inductive exn : Type :=
| NameError
| KeyError
| ValueError
| TypeError
| IOError
| AttributeError
| OtherError (msg : string).

Inductive outcome (A : Type) : Type :=
| Return (a : A)
| Raise (e : exn).
Arguments Return {A} a.
Arguments Raise {A} e.

(** Sequencing: the first exception ends the computation.  With the instance,
    [x ← c; k] runs [c], binds its value to [x] and goes on with [k]. *)
#[global] Instance outcome_bind : MBind outcome := fun A B k c =>
  match c with
  | Return a => k a
  | Raise e => Raise e
  end.

(** [d[k]] on a dictionary: [KeyError] when the key is absent. *)
Definition subscript {V} (d : gmap string V) (k : string) : outcome V :=
  match d !! k with
  | Some v => Return v
  | None => Raise KeyError
  end.

(* ================================================================== *)
(** ** Logging *)
(* ================================================================== *)

Inductive loglevel : Type := DEBUG | INFO | WARNING | ERROR.

Inductive logmsg : Type :=
| Text (s : string)
| Exc (e : exn).

Definition log : Type := list (loglevel * logmsg).

(* ================================================================== *)
(** ** Text helpers: decimal printing, padding, replacement *)
(* ================================================================== *)

(** Prepend zeros until the text is [w] characters wide. *)
Fixpoint zeros (n : nat) : string :=
  match n with
  | O => ""
  | S n' => String "0"%char (zeros n')
  end.

Definition zfill (w : nat) (s : string) : string :=
  zeros (w - String.length s) +:+ s.

(** ['%.5d' % n]: at least five digits, the sign in front. *)
Definition fmt_05d (n : Z) : string :=
  if n <? 0 then "-" +:+ zfill 5 (pretty (Z.abs n)) else zfill 5 (pretty n).

Fixpoint starts_with (p s : string) : bool :=
  match p, s with
  | EmptyString, _ => true
  | String a p', String b s' => if Ascii.eqb a b then starts_with p' s' else false
  | String _ _, EmptyString => false
  end.

Fixpoint drop_chars (n : nat) (s : string) : string :=
  match n, s with
  | O, _ => s
  | S n', String _ s' => drop_chars n' s'
  | S _, EmptyString => EmptyString
  end.

(** [s.replace(old, new)] for a non-empty [old]: leftmost occurrences, not
    overlapping.  [skip] counts the characters of a match still to be dropped. *)
Fixpoint replace_go (old new : string) (skip : nat) (s : string) : string :=
  match s with
  | EmptyString => EmptyString
  | String c s' =>
      match skip with
      | S k => replace_go old new k s'
      | O =>
          if starts_with old s
          then new +:+ replace_go old new (String.length old - 1) s'
          else String c (replace_go old new O s')
      end
  end.

Definition str_replace (s old new : string) : string := replace_go old new O s.

Definition str_endswith (s suffix : string) : bool :=
  let n := String.length s in
  let k := String.length suffix in
  if (k <=? n)%nat then String.eqb (drop_chars (n - k) s) suffix else false.

(** [sep.join(parts)] *)
Fixpoint str_join (sep : string) (parts : list string) : string :=
  match parts with
  | [] => ""
  | [p] => p
  | p :: rest => p +:+ sep +:+ str_join sep rest
  end.

(* ================================================================== *)
(** ** datetime and timedelta *)
(* ================================================================== *)

(** A naive [datetime.datetime], field by field. *)
Record datetime : Type := mkDatetime {
  year : Z; month : Z; day : Z;
  hour : Z; minute : Z; second : Z; microsecond : Z
}.

Definition is_leap (y : Z) : bool :=
  (y mod 4 =? 0) && (negb (y mod 100 =? 0) || (y mod 400 =? 0)).

Definition days_before_year (y : Z) : Z :=
  let y1 := y - 1 in y1 * 365 + y1 / 4 - y1 / 100 + y1 / 400.

Definition days_before_month (y m : Z) : Z :=
  nth (Z.to_nat m) [0; 0; 31; 59; 90; 120; 151; 181; 212; 243; 273; 304; 334] 0
  + (if (2 <? m) && is_leap y then 1 else 0).

Definition toordinal (d : datetime) : Z :=
  days_before_year (year d) + days_before_month (year d) (month d) + day d.

(** A [timedelta] is kept as its total number of microseconds; the normalised
    (days, seconds, microseconds) triple of the source is the mixed-radix
    numeral of that number, so [<] and [abs] agree. *)
Definition timedelta : Type := Z.

Definition timedelta_of (days seconds microseconds : Z) : timedelta :=
  (days * 86400 + seconds) * 1000000 + microseconds.

Definition timedelta_minutes (m : Z) : timedelta := timedelta_of 0 (m * 60) 0.

(** [a - b] on datetimes. *)
Definition datetime_sub (a b : datetime) : timedelta :=
  let secs (d : datetime) := second d + minute d * 60 + hour d * 3600 in
  timedelta_of (toordinal a - toordinal b) (secs a - secs b)
               (microsecond a - microsecond b).

Definition fmt2 (n : Z) : string := zfill 2 (pretty n).
Definition fmt4 (n : Z) : string := zfill 4 (pretty n).

(** [strftime('%Y%m%d%H%M')] *)
Definition strftime_YmdHM (d : datetime) : string :=
  fmt4 (year d) +:+ fmt2 (month d) +:+ fmt2 (day d) +:+
  fmt2 (hour d) +:+ fmt2 (minute d).

(** [strftime('%Y%m%d%H%M%S')] *)
Definition strftime_YmdHMS (d : datetime) : string :=
  strftime_YmdHM d +:+ fmt2 (second d).

(** [str(d)]: ISO format with a blank, the fraction only when non-zero. *)
Definition datetime_str (d : datetime) : string :=
  fmt4 (year d) +:+ "-" +:+ fmt2 (month d) +:+ "-" +:+ fmt2 (day d) +:+ " " +:+
  fmt2 (hour d) +:+ ":" +:+ fmt2 (minute d) +:+ ":" +:+ fmt2 (second d) +:+
  (if microsecond d =? 0 then "" else "." +:+ zfill 6 (pretty (microsecond d))).

(* ================================================================== *)
(** ** Python values *)
(* ================================================================== *)

Inductive pyval : Type :=
| PyNone
| PyInt (n : Z)
| PyStr (s : string)
| PyDatetime (d : datetime).

#[global] Instance datetime_eq_dec : EqDecision datetime.
Proof. solve_decision. Defined.

#[global] Instance pyval_eq_dec : EqDecision pyval.
Proof. solve_decision. Defined.

Abbreviation pydict := (gmap string pyval).

(** [str(v)] *)
Definition py_str (v : pyval) : string :=
  match v with
  | PyNone => "None"
  | PyInt n => pretty n
  | PyStr s => s
  | PyDatetime d => datetime_str d
  end.

(** Truth value of [v] in a condition. *)
Definition py_truthy (v : pyval) : bool :=
  match v with
  | PyNone => false
  | PyInt n => negb (n =? 0)
  | PyStr s => negb (String.eqb s "")
  | PyDatetime _ => true
  end.

(** [v in names] for a list of string literals. *)
Definition py_in (v : pyval) (names : list string) : bool :=
  match v with
  | PyStr s => existsb (String.eqb s) names
  | _ => false
  end.

(* ================================================================== *)
(** ** SceneId *)
(* ================================================================== *)

Record SceneId : Type := mkSceneId {
  platform_name : string;
  orbit_number : Z;
  starttime : datetime;
  threshold : Z
}.

(** [SceneId(platform_name, orbit_number, starttime)]: threshold defaults to 5. *)
Definition SceneId_init (p : string) (o : Z) (st : datetime) : SceneId :=
  mkSceneId p o st 5.

(** [__str__], which is also the text [__hash__] hands to the builtin [hash]. *)
Definition SceneId_str (s : SceneId) : string :=
  platform_name s +:+ "_" +:+ pretty (orbit_number s) +:+ "_" +:+
  strftime_YmdHM (starttime s).

(** [__hash__], over the interpreter's string hash. *)
Definition SceneId_hash (hash : string -> Z) (s : SceneId) : Z :=
  hash (SceneId_str s).

(** [__eq__] *)
Definition SceneId_eq (self other : SceneId) : bool :=
  String.eqb (platform_name self) (platform_name other) &&
  (orbit_number self =? orbit_number other) &&
  (Z.abs (datetime_sub (starttime self) (starttime other))
     <? timedelta_minutes (threshold self)).

(* ================================================================== *)
(** ** Module constants *)
(* ================================================================== *)

Definition PPS_OUT_PATTERN : string :=
  "S_NWC_{segment}_{orig_platform_name}_{orbit_number:05d}_" +:+
  "{start_time:%Y%m%dT%H%M%S%f}Z_{end_time:%Y%m%dT%H%M%S%f}Z.{extention}".
Definition PPS_OUT_PATTERN_MULTIPLE : string :=
  "S_NWC_{segment1}_{segment2}_{orig_platform_name}_{orbit_number:05d}_" +:+
  "{start_time:%Y%m%dT%H%M%S%f}Z_{end_time:%Y%m%dT%H%M%S%f}Z.{extention}".
Definition PPS_STAT_PATTERN : string :=
  "S_NWC_{segment}_{orig_platform_name}_{orbit_number:05d}_" +:+
  "{start_time:%Y%m%dT%H%M%S%f}Z_{end_time:%Y%m%dT%H%M%S%f}Z_statistics.xml".

Definition SUPPORTED_AVHRR_SATELLITES : list string :=
  ["NOAA-15"; "NOAA-18"; "NOAA-19"; "Metop-B"; "Metop-A"; "Metop-C"].
Definition SUPPORTED_MODIS_SATELLITES : list string := ["EOS-Terra"; "EOS-Aqua"].
Definition SUPPORTED_VIIRS_SATELLITES : list string :=
  ["Suomi-NPP"; "NOAA-20"; "NOAA-21"; "NOAA-22"; "NOAA-23"].
Definition SUPPORTED_SEVIRI_SATELLITES : list string :=
  ["Meteosat-09"; "Meteosat-10"; "Meteosat-11"].
Definition SUPPORTED_METIMAGE_SATELLITES : list string :=
  ["Metop-SG-A1"; "Metop-SG-A2"; "Metop-SG-A3"].

Definition SUPPORTED_PPS_SATELLITES : list string :=
  SUPPORTED_AVHRR_SATELLITES ++ SUPPORTED_MODIS_SATELLITES ++
  SUPPORTED_SEVIRI_SATELLITES ++ SUPPORTED_METIMAGE_SATELLITES ++
  SUPPORTED_VIIRS_SATELLITES.

Definition PPS_SENSORS : list string :=
  ["amsu-a"; "amsu-b"; "mhs"; "avhrr/3"; "viirs"; "modis"; "seviri"; "metimage"].
Definition NOAA_METOP_PPS_SENSORNAMES : list string :=
  ["avhrr/3"; "amsu-a"; "amsu-b"; "mhs"].

Definition METOP_NAME_LETTER : gmap string string :=
  list_to_map [("metop01", "metopb"); ("metop02", "metopa"); ("metop03", "metopc")].

Definition SATELLITE_NAME : gmap string string :=
  list_to_map
    [("NOAA-19", "noaa19"); ("NOAA-18", "noaa18"); ("NOAA-15", "noaa15");
     ("Metop-A", "metop02"); ("Metop-B", "metop01"); ("Metop-C", "metop03");
     ("Metop-SG-A1", "metopsga1"); ("Metop-SG-A2", "metopsga2");
     ("Metop-SG-A3", "metopsga3"); ("Suomi-NPP", "npp");
     ("NOAA-20", "noaa20"); ("NOAA-21", "noaa21"); ("NOAA-23", "noaa23");
     ("EOS-Aqua", "eos2"); ("EOS-Terra", "eos1");
     ("Meteosat-09", "meteosat09"); ("Meteosat-10", "meteosat10");
     ("Meteosat-11", "meteosat11")].

(** [v in d] for a dictionary with string keys. *)
Definition py_in_dict {V} (v : pyval) (d : gmap string V) : bool :=
  match v with
  | PyStr s => bool_decide (is_Some (d !! s))
  | _ => false
  end.

(** [d[v]] where the key is any value: only strings are keys of these tables. *)
Definition subscript_val {V} (d : gmap string V) (v : pyval) : outcome V :=
  match v with
  | PyStr s => subscript d s
  | _ => Raise KeyError
  end.

(* ================================================================== *)
(** ** os.path (POSIX) *)
(* ================================================================== *)

Definition path_join (a b : string) : string :=
  if starts_with "/" b then b
  else if String.eqb a "" || str_endswith a "/" then a +:+ b
  else a +:+ "/" +:+ b.

(** The text after the last slash; [cur] is what has been read since it. *)
Fixpoint basename_from (cur s : string) : string :=
  match s with
  | EmptyString => cur
  | String c s' =>
      if Ascii.eqb c "/" then basename_from "" s'
      else basename_from (cur +:+ String c "") s'
  end.

Definition path_basename (p : string) : string := basename_from "" p.

(* ================================================================== *)
(** ** int() on values *)
(* ================================================================== *)

Definition is_digit (c : ascii) : bool :=
  let n := nat_of_ascii c in (48 <=? n)%nat && (n <=? 57)%nat.

Definition digit_value (c : ascii) : Z := Z.of_nat (nat_of_ascii c - 48).

(** The white space [int] skips around an ASCII numeral: tab, line feed,
    vertical tab, form feed, carriage return and blank. *)
Definition is_py_space (c : ascii) : bool :=
  let n := nat_of_ascii c in
  ((9 <=? n)%nat && (n <=? 13)%nat) || (n =? 32)%nat.

Fixpoint lstrip (s : string) : string :=
  match s with
  | String c s' => if is_py_space c then lstrip s' else s
  | EmptyString => EmptyString
  end.

Definition str_strip (s : string) : string :=
  String.rev (lstrip (String.rev (lstrip s))).

(** Digits with single underscores between them; [after_us] holds when the
    previous character was an underscore. *)
Fixpoint parse_digits (acc : Z) (after_us : bool) (s : string) : option Z :=
  match s with
  | EmptyString => if after_us then None else Some acc
  | String c s' =>
      if is_digit c then parse_digits (10 * acc + digit_value c) false s'
      else if Ascii.eqb c "_" then
             if after_us then None else parse_digits acc true s'
      else None
  end.

Definition parse_unsigned (s : string) : option Z :=
  match s with
  | String c s' => if is_digit c then parse_digits (digit_value c) false s' else None
  | EmptyString => None
  end.

(** [int(s)] for ASCII text in base ten. *)
Definition int_of_string (s : string) : outcome Z :=
  let body := str_strip s in
  let signed :=
    match body with
    | String "-" rest => Z.opp <$> parse_unsigned rest
    | String "+" rest => parse_unsigned rest
    | _ => parse_unsigned body
    end in
  match signed with
  | Some n => Return n
  | None => Raise ValueError
  end.

Definition py_int (v : pyval) : outcome Z :=
  match v with
  | PyInt n => Return n
  | PyStr s => int_of_string s
  | PyNone | PyDatetime _ => Raise TypeError
  end.

(* ================================================================== *)
(** ** shlex.split (POSIX mode, no comments, split on white space only) *)
(* ================================================================== *)

(** The lexer's [state]: [' '] between tokens, ['a'] inside a word, a quote
    character inside quotes, the escape character after a backslash (carrying
    [escapedstate]: [None] for ['a'], [Some q] for the quote to return to). *)
Inductive lex_state : Type :=
| LexBlank
| LexWord
| LexQuote (q : ascii)
| LexEscape (escapedstate : option ascii).

Definition is_lex_space (c : ascii) : bool :=
  Ascii.eqb c " " || Ascii.eqb c "009" || Ascii.eqb c "013" || Ascii.eqb c "010".

Definition is_lex_quote (c : ascii) : bool :=
  Ascii.eqb c "'" || Ascii.eqb c "034".

Definition is_lex_escape (c : ascii) : bool := Ascii.eqb c "\".

Definition push (token : string) (c : ascii) : string := token +:+ String c "".

(** [read_token] iterated to the end of the input.  [quoted] and [token] are
    the variables of the call in progress; emitting a token starts the next
    call with [quoted = False] and an empty token.  With [whitespace_split] a
    character that is neither white space, escape nor quote joins the word,
    whether or not it is in [wordchars]. *)
Fixpoint read_tokens (st : lex_state) (quoted : bool) (token : string)
         (input : string) : outcome (list string) :=
  match input with
  | EmptyString =>
      match st with
      | LexBlank => Return []
      | LexWord =>
          Return (if quoted || negb (String.eqb token "") then [token] else [])
      | LexQuote _ => Raise ValueError
      | LexEscape _ => Raise ValueError
      end
  | String c rest =>
      match st with
      | LexBlank =>
          if is_lex_space c then
            if negb (String.eqb token "") || quoted
            then more ← read_tokens LexBlank false "" rest; Return (token :: more)
            else read_tokens LexBlank quoted token rest
          else if is_lex_escape c then read_tokens (LexEscape None) quoted token rest
          else if is_lex_quote c then read_tokens (LexQuote c) quoted token rest
          else read_tokens LexWord quoted (String c "") rest
      | LexQuote q =>
          if Ascii.eqb c q then read_tokens LexWord true token rest
          else if is_lex_escape c && Ascii.eqb q "034"
               then read_tokens (LexEscape (Some q)) true token rest
          else read_tokens (LexQuote q) true (push token c) rest
      | LexEscape es =>
          let token' :=
            match es with
            | Some q =>
                if negb (is_lex_escape c) && negb (Ascii.eqb c q)
                then push token "\" else token
            | None => token
            end in
          read_tokens (match es with Some q => LexQuote q | None => LexWord end)
                      quoted (push token' c) rest
      | LexWord =>
          if is_lex_space c then
            if negb (String.eqb token "") || quoted
            then more ← read_tokens LexBlank false "" rest; Return (token :: more)
            else read_tokens LexBlank quoted token rest
          else if is_lex_quote c then read_tokens (LexQuote c) quoted token rest
          else if is_lex_escape c then read_tokens (LexEscape None) quoted token rest
          else read_tokens LexWord quoted (push token c) rest
      end
  end.

Definition shlex_split (s : string) : outcome (list string) :=
  read_tokens LexBlank false "" s.

(* ================================================================== *)
(** ** Command builders *)
(* ================================================================== *)

(** [os.environ.get(name, options.get(name, None))] *)
Definition env_or_option (environ : gmap string string) (options : pydict)
           (name : string) : pyval :=
  match environ !! name with
  | Some s => PyStr s
  | None => default PyNone (options !! name)
  end.

(** Protocol A.  [environ] is the process environment the function reads. *)
Definition create_pps_call_command_sequence (environ : gmap string string)
           (pps_script_name : string) (scene options : pydict)
  : outcome (list string) :=
  let LVL1_NPP_PATH := env_or_option environ options "LVL1_NPP_PATH" in
  let LVL1_EOS_PATH := env_or_option environ options "LVL1_EOS_PATH" in
  platform ← subscript scene "platform_name";
  cmdstr ←
    (if py_in platform SUPPORTED_MODIS_SATELLITES then
       sat ← subscript_val SATELLITE_NAME platform;
       orbit ← subscript scene "orbit_number";
       satday ← subscript scene "satday";
       sathour ← subscript scene "sathour";
       Return (pps_script_name +:+ " " +:+ sat +:+ " " +:+ py_str orbit +:+ " " +:+
               py_str satday +:+ " " +:+ py_str sathour)
     else
       sat ← subscript_val SATELLITE_NAME platform;
       orbit ← subscript scene "orbit_number";
       Return (pps_script_name +:+ " " +:+ sat +:+ " " +:+ py_str orbit +:+ " 0 0"));
  max_old ← subscript options "aapp_level1files_max_minutes_old";
  let cmdstr := cmdstr +:+ " " +:+ py_str max_old in
  let cmdstr :=
    if py_in platform SUPPORTED_VIIRS_SATELLITES && py_truthy LVL1_NPP_PATH
    then cmdstr +:+ " " +:+ py_str LVL1_NPP_PATH
    else if py_in platform SUPPORTED_MODIS_SATELLITES && py_truthy LVL1_EOS_PATH
    then cmdstr +:+ " " +:+ py_str LVL1_EOS_PATH
    else cmdstr in
  shlex_split cmdstr.

(** Protocol B: the value returned is the command text [cmdstr] itself; the
    debug record is the function's only effect. *)
Definition create_pps_call_command (python_exec pps_script_name : string)
           (scene : pydict) : log * outcome string :=
  match subscript scene "file4pps" with
  | Raise e => ([], Raise e)
  | Return file4pps =>
      let cmdstr := python_exec +:+ " " +:+ pps_script_name +:+ " " +:+
                    "-af " +:+ py_str file4pps in
      ([(DEBUG, Text ("PPS call command: " +:+ cmdstr))], Return cmdstr)
  end.

(** [run_command] hands the command text to [shlex.split] to obtain the
    argument vector it starts the process with. *)
Definition run_command_args (cmdstr : string) : outcome (list string) :=
  shlex_split cmdstr.

(* ================================================================== *)
(** ** get_xml_outputfiles *)
(* ================================================================== *)

Definition ORBIT_OFFSETS : list Z := [1; -1; 2; -2; 3; -3; 4; -4; 5; -5].

(** The glob pattern for one orbit number. *)
Definition xml_output_pattern (path platform_name : string) (orbit : Z)
           (st_time : string) : string :=
  path_join path "S_NWC" +:+ "*" +:+
  default platform_name (METOP_NAME_LETTER !! platform_name) +:+
  "_" +:+ fmt_05d orbit +:+ "_" +:+ st_time +:+ "*.xml".

Definition try_orbit_msg (tmp_orbit : Z) : loglevel * logmsg :=
  (DEBUG, Text ("Try with an orbitnumber of " +:+ pretty tmp_orbit +:+ " instead")).

(** The [for idx in [1, -1, ...]] loop: [filelist] is the list bound before
    the iteration, and [break] leaves with the list just found. *)
Fixpoint retry_orbits (glob : string -> list string) (path platform_name : string)
         (orb : Z) (st_time : string) (offsets : list Z) (filelist : list string)
  : log * list string :=
  match offsets with
  | [] => ([], filelist)
  | idx :: more =>
      let tmp_orbit := orb + idx in
      let found := glob (xml_output_pattern path platform_name tmp_orbit st_time) in
      if (0 <? length found)%nat then ([try_orbit_msg tmp_orbit], found)
      else
        let '(lg, res) := retry_orbits glob path platform_name orb st_time more found in
        (try_orbit_msg tmp_orbit :: lg, res)
  end.

(** [glob] is the directory scan of the file system the call runs against. *)
Definition get_xml_outputfiles (glob : string -> list string)
           (path platform_name : string) (orb : pyval) (st_time : string)
  : log * outcome (list string) :=
  match py_int orb with
  | Raise e => ([], Raise e)
  | Return n =>
      let xml_output := xml_output_pattern path platform_name n st_time in
      let header :=
        (INFO, Text ("Match string to do a file globbing on xml output files: "
                     +:+ xml_output)) in
      let filelist := glob xml_output in
      if (length filelist =? 0)%nat then
        let '(lg, res) :=
          retry_orbits glob path platform_name n st_time ORBIT_OFFSETS filelist in
        (header :: lg, Return res)
      else ([header], Return filelist)
  end.

(* ================================================================== *)
(** ** Time statistics *)
(* ================================================================== *)

(** The trollsift functions the module imports: [parse] raises [ValueError]
    when the text does not match the pattern, [compose] raises [KeyError] when
    a field of the pattern has no value. *)
Record Trollsift : Type := {
  parse : string -> string -> outcome pydict;
  compose : string -> pydict -> outcome string
}.

(** The converter of the [pps_time_control] module: whether the module can be
    imported, and for each step the exception it raises, if any, on the given
    ascii file. *)
Record TimeControl : Type := {
  importable : bool;
  PPSTimeControl : string -> option exn;
  sum_up_processing_times : string -> option exn;
  write_xml : string -> option exn
}.

Definition create_pps_file_from_lvl1c (ts : Trollsift) (l1c_file_name : pyval)
           (pps_control_path name_tag file_type : string) : outcome string :=
  let f_pattern :=
    "S_NWC_{name_tag}_{platform_id}_{orbit_number}_{start_time}Z_{end_time}Z{file_type}" in
  match l1c_file_name with
  | PyStr name =>
      let l1c_file := path_basename name in
      data ← parse ts f_pattern l1c_file;
      let data := <["name_tag" := PyStr name_tag]> data in
      let data := <["file_type" := PyStr file_type]> data in
      composed ← compose ts f_pattern data;
      Return (path_join pps_control_path composed)
  | _ => Raise TypeError
  end.

Definition create_xml_timestat_from_ascii (tc : TimeControl)
           (infile pps_control_path : string) : log * outcome (list string) :=
  if negb (importable tc) then
    ([(WARNING, Text "Failed to import the PPSTimeControl from pps")], Return [])
  else
    let lg := [(INFO, Text ("Time control ascii file: " +:+ infile));
               (INFO, Text "Read time control ascii file and generate XML")] in
    match PPSTimeControl tc infile with
    | Some e => (lg, Raise e)
    | None =>
        match sum_up_processing_times tc infile with
        | Some e => (lg, Raise e)
        | None =>
            let lg :=
              match write_xml tc infile with
              | Some e =>
                  lg ++ [(WARNING, Text "Not able to write time control xml file");
                         (WARNING, Exc e)]
              | None => lg
              end in
            (lg, Return [str_replace infile ".txt" ".xml"])
        end
    end.

(** [path_exists] is [os.path.exists] on the file system of the call. *)
Definition create_xml_timestat_from_lvl1c (ts : Trollsift) (tc : TimeControl)
           (path_exists : string -> bool) (scene : pydict) (pps_control_path : string)
  : log * outcome (list string) :=
  match (file4pps ← subscript scene "file4pps";
         create_pps_file_from_lvl1c ts file4pps pps_control_path "timectrl" ".txt") with
  | Raise KeyError => ([], Return [])
  | Raise e => ([], Raise e)
  | Return txt_time_control =>
      if path_exists txt_time_control
      then create_xml_timestat_from_ascii tc txt_time_control pps_control_path
      else ([(WARNING, Text "No XML Time statistics file created!")], Return [])
  end.

(* ================================================================== *)
(** ** publish_pps_files *)
(* ================================================================== *)

(** The outgoing queue object with state [Q]: each operation gives the next
    state and the exception it raised, if any. *)
Record Queue (Q : Type) : Type := {
  put : string -> Q -> Q * option exn;
  send : string -> Q -> Q * option exn
}.
Arguments put {Q} _ _ _.
Arguments send {Q} _ _ _.

(** [Message(subject, "file", data).encode()] of posttroll. *)
Definition Encoder : Type := string -> string -> pydict -> outcome string.

Definition str_of (v : pyval) : outcome string :=
  match v with
  | PyStr s => Return s
  | _ => Raise TypeError
  end.

(** Lines 517-526: the three templates, tried in order on [ValueError]. *)
Definition parse_result_filename (ts : Trollsift) (filename : string) : outcome pydict :=
  let inner :=
    match parse ts PPS_OUT_PATTERN filename with
    | Raise ValueError =>
        metadata ← parse ts PPS_OUT_PATTERN_MULTIPLE filename;
        segment1 ← subscript metadata "segment1";
        segment2 ← subscript metadata "segment2";
        s1 ← str_of segment1;
        s2 ← str_of segment2;
        let metadata := <["segment" := PyStr (str_join "_" [s1; s2])]> metadata in
        Return (delete "segment2" (delete "segment1" metadata))
    | other => other
    end in
  match inner with
  | Raise ValueError => parse ts PPS_STAT_PATTERN filename
  | other => other
  end.

(** Lines 528-550: the outgoing payload for one result file. *)
Definition build_to_send (input_data scene metadata : pydict)
           (result_file filename : string) : outcome pydict :=
  endtime ← subscript metadata "end_time";
  starttime ← subscript metadata "start_time";
  let to_send := input_data in
  let to_send := delete "dataset" to_send in
  let to_send := delete "collection" to_send in
  let to_send := <["uri" := PyStr result_file]> to_send in
  let to_send := <["uid" := PyStr filename]> to_send in
  let sensor := default PyNone (scene !! "instrument") in
  let sensor := if py_truthy sensor then sensor else default PyNone (scene !! "sensor") in
  let to_send := <["sensor" := sensor]> to_send in
  platform ← subscript scene "platform_name";
  let to_send := <["platform_name" := platform]> to_send in
  orbit ← subscript scene "orbit_number";
  let to_send := <["orbit_number" := orbit]> to_send in
  let to_send :=
    if str_endswith result_file "xml"
    then <["type" := PyStr "XML"]> (<["format" := PyStr "PPS-XML"]> to_send)
    else to_send in
  let to_send :=
    if str_endswith result_file "nc"
    then <["type" := PyStr "netCDF4"]> (<["format" := PyStr "CF"]> to_send)
    else to_send in
  let to_send := <["data_processing_level" := PyStr "2"]> to_send in
  let to_send := <["start_time" := starttime]> to_send in
  let to_send := <["end_time" := endtime]> to_send in
  Return to_send.

(** Lines 551-555: the subject and the encoded message. *)
Definition encode_message (encode : Encoder) (station : string) (to_send : pydict)
  : outcome string :=
  format ← subscript to_send "format";
  format ← str_of format;
  level ← subscript to_send "data_processing_level";
  level ← str_of level;
  encode ("/" +:+ format +:+ "/" +:+ level +:+ "/" +:+ station +:+
          "/polar/direct_readout/") "file" to_send.

(** Lines 515-555 for one result file. *)
Definition compose_pubmsg (ts : Trollsift) (encode : Encoder) (station : string)
           (input_data scene : pydict) (result_file : string) : outcome string :=
  let filename := path_basename result_file in
  metadata ← parse_result_filename ts filename;
  to_send ← build_to_send input_data scene metadata result_file filename;
  encode_message encode station to_send.

(** Lines 557-561: [put], and [send] on the same queue when [put] raises. *)
Definition enqueue {Q} (queue : Queue Q) (pubmsg : string) (q : Q)
  : log * Q * outcome unit :=
  match put queue pubmsg q with
  | (q1, None) => ([], q1, Return tt)
  | (q1, Some _) =>
      let lg := [(WARNING, Text "Failed putting message on the queue, will send it now...")] in
      match send queue pubmsg q1 with
      | (q2, None) => (lg, q2, Return tt)
      | (q2, Some e) => (lg, q2, Raise e)
      end
  end.

(** The body of the loop over [result_files]. *)
Definition publish_one {Q} (ts : Trollsift) (encode : Encoder) (queue : Queue Q)
           (station : string) (input_data scene : pydict) (result_file : string) (q : Q)
  : log * Q * outcome unit :=
  let lg := [(INFO, Text ("file to publish = " +:+ path_basename result_file))] in
  match compose_pubmsg ts encode station input_data scene result_file with
  | Raise e => (lg, q, Raise e)
  | Return pubmsg =>
      let '(lg2, q', r) := enqueue queue pubmsg q in
      (lg ++ (INFO, Text ("Sending: " +:+ pubmsg)) :: lg2, q', r)
  end.

(** [publish_pps_files]; [station] is [kwargs.get('station', 'unknown')].  An
    exception leaves the loop and the function. *)
Fixpoint publish_loop {Q} (ts : Trollsift) (encode : Encoder) (queue : Queue Q)
         (station : string) (input_data scene : pydict) (result_files : list string)
         (q : Q) : log * Q * outcome unit :=
  match result_files with
  | [] => ([], q, Return tt)
  | result_file :: rest =>
      match publish_one ts encode queue station input_data scene result_file q with
      | (lg, q', Return _) =>
          let '(lg2, q'', r) :=
            publish_loop ts encode queue station input_data scene rest q' in
          (lg ++ lg2, q'', r)
      | (lg, q', Raise e) => (lg, q', Raise e)
      end
  end.

Definition publish_pps_files {Q} (ts : Trollsift) (encode : Encoder) (queue : Queue Q)
           (input_data : pydict) (q : Q) (scene : pydict) (result_files : list string)
           (station : option string) : log * Q * outcome unit :=
  publish_loop ts encode queue (default "unknown" station) input_data scene
               result_files q.

(* ================================================================== *)
(** ** ready2run *)
(* ================================================================== *)

(** A posttroll message: [host] is absent when the object has no such
    attribute. *)
Record Message : Type := {
  msg_type : string;
  msg_host : option string;
  msg_data : pydict
}.

(** The host the call runs on: [urlparse] gives the host name and the path of
    a location, [gethostbyname] is [None] when the resolver raises [gaierror],
    [os_stat] tells whether [os.stat] succeeds. *)
Record Network : Type := {
  urlparse : pyval -> outcome (option string * string);
  gethostbyname : string -> option string;
  get_local_ips : list string;
  os_stat : string -> bool
}.

(** [check_uri] on one location. *)
Definition check_uri (net : Network) (uri : pyval) : outcome string :=
  url ← urlparse net uri;
  let '(hostname, path) := url in
  match hostname with
  | Some h =>
      if negb (String.eqb h "") then
        match gethostbyname net h with
        | Some url_ip =>
            if negb (existsb (String.eqb url_ip) (get_local_ips net)) then
              if os_stat net path then Return path else Raise IOError
            else Return path
        | None => Return path
        end
      else Return path
  | None => Return path
  end.

(** [check_uri] on a list: [[check_uri(ressource) for ressource in uri]]. *)
Fixpoint check_uri_list (net : Network) (uris : list pyval) : outcome (list string) :=
  match uris with
  | [] => Return []
  | uri :: rest =>
      p ← check_uri net uri;
      ps ← check_uri_list net rest;
      Return (p :: ps)
  end.

(** Lines 234-246 for a message of type ['file']. *)
Definition message_uris (msg : Message) : outcome (list pyval) :=
  match default PyNone (msg_data msg !! "destination") with
  | PyNone => uri ← subscript (msg_data msg) "uri"; Return [uri]
  | destination =>
      uid ← subscript (msg_data msg) "uid";
      d ← str_of destination;
      u ← str_of uid;
      Return [PyStr (path_join d u)]
  end.

(** Lines 254-261: [false] when the message comes from another server; a
    missing [host] attribute and a resolver failure are logged and passed. *)
Definition server_is_current (net : Network) (msg : Message) : bool :=
  match msg_host msg with
  | Some h =>
      match gethostbyname net h with
      | Some url_ip => existsb (String.eqb url_ip) (get_local_ips net)
      | None => true
      end
  | None => true
  end.

(** Lines 271-299: whether the sensor is the one the platform's family needs. *)
Definition sensor_required (platform sensor : pyval) : bool :=
  if py_in platform SUPPORTED_SEVIRI_SATELLITES then py_in sensor ["seviri"]
  else if py_in platform SUPPORTED_MODIS_SATELLITES then py_in sensor ["modis"]
  else if py_in platform SUPPORTED_VIIRS_SATELLITES then py_in sensor ["viirs"]
  else if py_in platform SUPPORTED_METIMAGE_SATELLITES then py_in sensor ["metimage"]
  else py_in sensor NOAA_METOP_PPS_SENSORNAMES.

(** [get_sceneid]: a start time that is true in a condition must have
    [strftime]. *)
Definition get_sceneid (platform_name : pyval) (orbit_number : Z) (starttime : pyval)
  : outcome string :=
  if py_truthy starttime then
    match starttime with
    | PyDatetime st =>
        Return (py_str platform_name +:+ "_" +:+ pretty orbit_number +:+ "_" +:+
                strftime_YmdHMS st)
    | _ => Raise AttributeError
    end
  else Return (py_str platform_name +:+ "_" +:+ pretty orbit_number).

(** An object a module-level name is bound to: a scalar value, or some other
    object, of which only whether it can be a dictionary key matters here. *)
Inductive pyobj : Type :=
| Scalar (v : pyval)
| Hashable
| Unhashable.

(** The names bound at module level of [utils.py], in source order: imports,
    exception classes, constants, [SceneId] and the functions.  (The
    interpreter adds its dunder names and the builtins; none of them is named
    [sceneid].) *)
Definition utils_globals : list (string * pyobj) :=
  [("threading", Hashable); ("parse", Hashable); ("globify", Hashable);
   ("Message", Hashable); ("Popen", Hashable); ("PIPE", Scalar (PyInt (-1)));
   ("os", Hashable); ("stat", Hashable); ("shlex", Hashable); ("glob", Hashable);
   ("socket", Hashable); ("datetime", Hashable); ("timedelta", Hashable);
   ("urlparse", Hashable); ("get_local_ips", Hashable); ("logging", Hashable);
   ("LOG", Hashable);
   ("NwpPrepareError", Hashable); ("FindTimeControlFileError", Hashable);
   ("PPS_OUT_PATTERN", Scalar (PyStr PPS_OUT_PATTERN));
   ("PPS_OUT_PATTERN_MULTIPLE", Scalar (PyStr PPS_OUT_PATTERN_MULTIPLE));
   ("PPS_STAT_PATTERN", Scalar (PyStr PPS_STAT_PATTERN));
   ("SUPPORTED_AVHRR_SATELLITES", Unhashable);
   ("SUPPORTED_EARS_AVHRR_SATELLITES", Unhashable);
   ("SUPPORTED_MODIS_SATELLITES", Unhashable);
   ("SUPPORTED_VIIRS_SATELLITES", Unhashable);
   ("SUPPORTED_SEVIRI_SATELLITES", Unhashable);
   ("SUPPORTED_METIMAGE_SATELLITES", Unhashable);
   ("SUPPORTED_PPS_SATELLITES", Unhashable);
   ("GEOLOC_PREFIX", Unhashable); ("DATA1KM_PREFIX", Unhashable);
   ("PPS_SENSORS", Unhashable); ("REQUIRED_MW_SENSORS", Unhashable);
   ("NOAA_METOP_PPS_SENSORNAMES", Unhashable);
   ("METOP_NAME_LETTER", Unhashable); ("METOP_NAME", Unhashable);
   ("METOP_NAME_INV", Unhashable); ("SATELLITE_NAME", Unhashable);
   ("SENSOR_LIST", Unhashable); ("sat", Scalar (PyStr "Meteosat-11"));
   ("METOP_SENSOR", Unhashable);
   ("run_command", Hashable); ("check_uri", Hashable); ("PpsRunError", Hashable);
   ("SceneId", Hashable); ("message_uid", Hashable); ("get_sceneid", Hashable);
   ("ready2run", Hashable); ("terminate_process", Hashable);
   ("create_pps_call_command_sequence", Hashable);
   ("create_pps_call_command", Hashable); ("get_pps_inputfile", Hashable);
   ("get_xml_outputfiles", Hashable); ("create_xml_timestat_from_lvl1c", Hashable);
   ("find_product_statistics_from_lvl1c", Hashable);
   ("create_pps_file_from_lvl1c", Hashable);
   ("create_xml_timestat_from_ascii", Hashable); ("publish_pps_files", Hashable);
   ("logreader", Hashable)].

(** Evaluating a name that the function never assigns: the module's binding,
    [NameError] when there is none. *)
Definition load_global (name : string) : outcome pyobj :=
  match List.find (fun entry => String.eqb (fst entry) name) utils_globals with
  | Some (_, obj) => Return obj
  | None => Raise NameError
  end.

(** [files4pps[key]] on the index, a dictionary from scene identifiers to the
    files of the scene: the key used and the list found. *)
Definition getitem_files (files4pps : gmap string (list string)) (key : pyobj)
  : outcome (string * list string) :=
  match key with
  | Scalar (PyStr k) => files ← subscript files4pps k; Return (k, files)
  | Scalar _ | Hashable => Raise KeyError
  | Unhashable => Raise TypeError
  end.

(** Lines 315-316: [for item in level1_files: files4pps[sceneid].append(item)],
    where [sceneid] is a name the function does not bind. *)
Fixpoint append_level1_files (level1_files : list string)
         (files4pps : gmap string (list string))
  : gmap string (list string) * outcome unit :=
  match level1_files with
  | [] => (files4pps, Return tt)
  | item :: rest =>
      match (sceneid ← load_global "sceneid"; getitem_files files4pps sceneid) with
      | Return (k, files) =>
          append_level1_files rest (<[k := files ++ [item]]> files4pps)
      | Raise e => (files4pps, Raise e)
      end
  end.

(** [ready2run]: the index after the call, and [True], [False] or [None]
    (leaving the function at its end), or the exception raised. *)
Definition ready2run (net : Network) (msg : Message)
           (files4pps : gmap string (list string))
  : gmap string (list string) * outcome (option bool) :=
  let ret (r : outcome (option bool)) := (files4pps, r) in
  if negb (String.eqb (msg_type msg) "file") then ret (Return (Some false)) else
  match message_uris msg with
  | Raise e => ret (Raise e)
  | Return uris =>
  match check_uri_list net uris with
  | Raise IOError => ret (Return (Some false))
  | Raise e => ret (Raise e)
  | Return level1_files =>
  if negb (server_is_current net msg) then ret (Return (Some false)) else
  match (platform ← subscript (msg_data msg) "platform_name";
         sensor ← subscript (msg_data msg) "sensor";
         Return (platform, sensor)) with
  | Raise e => ret (Raise e)
  | Return (platform_name, sensor) =>
  if negb (py_in sensor PPS_SENSORS) then ret (Return (Some false)) else
  if negb (sensor_required platform_name sensor) then ret (Return (Some false)) else
  match (orbit ← subscript (msg_data msg) "orbit_number"; py_int orbit) with
  | Raise e => ret (Raise e)
  | Return orbit_number =>
  if negb (py_in_dict platform_name SATELLITE_NAME) then ret (Return (Some false)) else
  let starttime := default PyNone (msg_data msg !! "start_time") in
  match append_level1_files level1_files files4pps with
  | (files4pps, Raise e) => (files4pps, Raise e)
  | (files4pps, Return _) =>
  match (sceneid ← load_global "sceneid"; getitem_files files4pps sceneid) with
  | Raise e => (files4pps, Raise e)
  | Return _ =>
  match (sceneid ← load_global "sceneid"; getitem_files files4pps sceneid) with
  | Raise e => (files4pps, Raise e)
  | Return (_, files) =>
  if (length files <? 1)%nat then (files4pps, Return (Some false))
  else if py_in platform_name SUPPORTED_PPS_SATELLITES
       then (files4pps, Return (Some true))
       else (files4pps, Return None)
  end end end end end end end.
(* ================================================================== *)
(** ** Vocabulary of the statements and sample data *)
(* ================================================================== *)

Definition noon (mi s : Z) : datetime := mkDatetime 2020 1 1 12 mi s 0.

(** A character that [shlex] reads as part of a word and nothing else. *)
Definition plain_char (c : ascii) : bool :=
  negb (is_lex_space c) && negb (is_lex_quote c) && negb (is_lex_escape c).

Fixpoint all_plain (s : string) : bool :=
  match s with
  | EmptyString => true
  | String c s' => plain_char c && all_plain s'
  end.

(** A non-empty text free of white space, quotes and backslashes. *)
Definition plain_word (s : string) : bool :=
  negb (String.eqb s "") && all_plain s.

Definition scene_f : pydict := {[ "file4pps" := PyStr "/data/f.nc" ]}.

Definition scene_npp : pydict :=
  {[ "platform_name" := PyStr "Suomi-NPP"; "orbit_number" := PyInt 12345 ]}.

Definition options_90 : pydict :=
  {[ "aapp_level1files_max_minutes_old" := PyInt 90; "LVL1_NPP_PATH" := PyStr "/opt/npp" ]}.

Definition scene_aqua : pydict :=
  {[ "platform_name" := PyStr "EOS-Aqua"; "orbit_number" := PyInt 7;
     "satday" := PyStr "20200101"; "sathour" := PyStr "1200" ]}.

(** What the directory scan returns at orbit [n + idx]. *)
Definition scan (glob : string -> list string) (path platform_name st_time : string)
           (n idx : Z) : list string :=
  glob (xml_output_pattern path platform_name (n + idx) st_time).

(** The debug records of the orbit numbers tried, in order. *)
Definition tries (n : Z) (offsets : list Z) : log :=
  map (fun idx => try_orbit_msg (n + idx)) offsets.

Definition glob_header (path platform_name : string) (n : Z) (st_time : string)
  : loglevel * logmsg :=
  (INFO, Text ("Match string to do a file globbing on xml output files: "
               +:+ xml_output_pattern path platform_name n st_time)).

(** A directory holding output for orbit 12346 only. *)
Definition glob_12346 (pattern : string) : list string :=
  if String.eqb pattern "/out/S_NWC*noaa19_12346_*.xml"
  then ["/out/S_NWC_timectrl_noaa19_12346_20200101T0000000Z_20200101T0010000Z.xml"]
  else [].

(** A host on which every location is local and readable. *)
Definition local_net : Network := {|
  urlparse := fun uri =>
    match uri with
    | PyStr s => Return (None, s)
    | _ => Raise AttributeError
    end;
  gethostbyname := fun _ => Some "127.0.0.1";
  get_local_ips := ["127.0.0.1"];
  os_stat := fun _ => true
|}.

(** The event of the readiness truth table: a MODIS file of EOS-Aqua. *)
Definition msg_aqua : Message := {|
  msg_type := "file";
  msg_host := Some "localhost";
  msg_data :=
    {[ "uri" := PyStr "/data/MYD021km_A2020001_1200.hdf";
       "uid" := PyStr "MYD021km_A2020001_1200.hdf";
       "platform_name" := PyStr "EOS-Aqua";
       "sensor" := PyStr "modis";
       "orbit_number" := PyInt 12345;
       "start_time" := PyDatetime (noon 0 0) ]}
|}.

(** An index that already holds one file of that scene. *)
Definition files4pps_aqua : gmap string (list string) :=
  {[ "EOS-Aqua_12345_20200101120000" := ["/data/MYD03_A2020001_1200.hdf"] ]}.

Definition CTTH_nc : string :=
  "S_NWC_CTTH_noaa19_00001_20200101T000000000Z_20200101T001000000Z.nc".
Definition CMA_PROB_nc : string :=
  "S_NWC_CMA_PROB_noaa19_00001_20200101T000000000Z_20200101T001000000Z.nc".
Definition CTTH_statistics_xml : string :=
  "S_NWC_CTTH_noaa19_00001_20200101T000000000Z_20200101T001000000Z_statistics.xml".
Definition avhrr_l1c : string :=
  "S_NWC_avhrr_noaa19_00001_20200101T0000000Z_20200101T0010000Z.nc".
Definition LVL1C_PATTERN : string :=
  "S_NWC_{name_tag}_{platform_id}_{orbit_number}_{start_time}Z_{end_time}Z{file_type}".

Definition sample_fields : pydict :=
  {[ "orig_platform_name" := PyStr "noaa19"; "orbit_number" := PyInt 1;
     "start_time" := PyDatetime (mkDatetime 2020 1 1 0 0 0 0);
     "end_time" := PyDatetime (mkDatetime 2020 1 1 0 10 0 0) ]}.

(** A parser that knows four file names, each under one pattern, and composes
    the level-1c pattern from its six text fields. *)
Definition sample_trollsift : Trollsift := {|
  parse := fun pattern text =>
    if String.eqb pattern PPS_OUT_PATTERN && String.eqb text CTTH_nc then
      Return (<["segment" := PyStr "CTTH"]> (<["extention" := PyStr "nc"]> sample_fields))
    else if String.eqb pattern PPS_OUT_PATTERN_MULTIPLE && String.eqb text CMA_PROB_nc then
      Return (<["segment1" := PyStr "CMA"]> (<["segment2" := PyStr "PROB"]>
             (<["extention" := PyStr "nc"]> sample_fields)))
    else if String.eqb pattern PPS_STAT_PATTERN && String.eqb text CTTH_statistics_xml then
      Return (<["segment" := PyStr "CTTH"]> sample_fields)
    else if String.eqb pattern LVL1C_PATTERN && String.eqb text avhrr_l1c then
      Return {[ "name_tag" := PyStr "avhrr"; "platform_id" := PyStr "noaa19";
                "orbit_number" := PyStr "00001"; "start_time" := PyStr "20200101T0000000";
                "end_time" := PyStr "20200101T0010000"; "file_type" := PyStr ".nc" ]}
    else Raise ValueError;
  compose := fun pattern fields =>
    name_tag ← subscript fields "name_tag";
    platform_id ← subscript fields "platform_id";
    orbit ← subscript fields "orbit_number";
    st ← subscript fields "start_time";
    en ← subscript fields "end_time";
    file_type ← subscript fields "file_type";
    Return ("S_NWC_" +:+ py_str name_tag +:+ "_" +:+ py_str platform_id +:+ "_" +:+
            py_str orbit +:+ "_" +:+ py_str st +:+ "Z_" +:+ py_str en +:+ "Z" +:+
            py_str file_type)
|}.

(** A converter that reads and sums up, and fails to write. *)
Definition failing_writer : TimeControl := {|
  importable := true;
  PPSTimeControl := fun _ => None;
  sum_up_processing_times := fun _ => None;
  write_xml := fun _ => Some TypeError
|}.

Definition scene_noaa19 : pydict :=
  {[ "file4pps" := PyStr ("/data/" +:+ avhrr_l1c); "platform_name" := PyStr "NOAA-19";
     "orbit_number" := PyInt 1; "sensor" := PyStr "avhrr/3" ]}.

Definition timectrl_txt : string :=
  "/ctrl/S_NWC_timectrl_noaa19_00001_20200101T0000000Z_20200101T0010000Z.txt".
Definition timectrl_xml : string :=
  "/ctrl/S_NWC_timectrl_noaa19_00001_20200101T0000000Z_20200101T0010000Z.xml".

(** The records of a conversion whose write step raised [e]. *)
Definition write_failure_log (infile : string) (e : exn) : log :=
  [(INFO, Text ("Time control ascii file: " +:+ infile));
   (INFO, Text "Read time control ascii file and generate XML");
   (WARNING, Text "Not able to write time control xml file");
   (WARNING, Exc e)].

(** An encoder that writes the subject, the type and the uid. *)
Definition sample_encode : Encoder := fun subject type data =>
  Return (subject +:+ " " +:+ type +:+ " " +:+ py_str (default PyNone (data !! "uid"))).

(** A queue object that records each call and on which every call raises. *)
Definition broken_queue : Queue (list (string * string)) := {|
  put := fun m q => (q ++ [("put", m)], Some (OtherError "queue full"));
  send := fun m q => (q ++ [("send", m)], Some (OtherError "not connected"))
|}.

(** A queue object that records each call, whose [put] raises and whose
    [send] works. *)
Definition send_only_queue : Queue (list (string * string)) := {|
  put := fun m q => (q ++ [("put", m)], Some (OtherError "queue full"));
  send := fun m q => (q ++ [("send", m)], None)
|}.

(** A queue object that records each call and never raises. *)
Definition recording_queue : Queue (list (string * string)) := {|
  put := fun m q => (q ++ [("put", m)], None);
  send := fun m q => (q ++ [("send", m)], None)
|}.

(** An incoming event carrying its own, different, times and a dataset. *)
Definition input_data_l1c : pydict :=
  {[ "uri" := PyStr ("/data/" +:+ avhrr_l1c); "uid" := PyStr avhrr_l1c;
     "start_time" := PyDatetime (mkDatetime 2019 12 31 23 58 0 0);
     "end_time" := PyDatetime (mkDatetime 2020 1 1 0 12 0 0);
     "dataset" := PyStr "files"; "format" := PyStr "PPS-L1C" ]}.

(** The records of one file whose [put] succeeded. *)
Definition enqueued_log (result_file pubmsg : string) : log :=
  [(INFO, Text ("file to publish = " +:+ path_basename result_file));
   (INFO, Text ("Sending: " +:+ pubmsg))].

(** The records of one file whose [put] raised. *)
Definition fallback_log (result_file pubmsg : string) : log :=
  [(INFO, Text ("file to publish = " +:+ path_basename result_file));
   (INFO, Text ("Sending: " +:+ pubmsg));
   (WARNING, Text "Failed putting message on the queue, will send it now...")].

(* ================================================================== *)
(** * Properties *)
(* ================================================================== *)

(** ** SceneId *)

Example datetime_sub_across_year :
  datetime_sub (mkDatetime 2021 1 1 0 0 0 0) (mkDatetime 2020 12 31 23 59 59 999999) = 1.
Proof. reflexivity. Qed.

Example datetime_sub_leap_day :
  datetime_sub (mkDatetime 2020 3 1 0 0 0 0) (mkDatetime 2020 2 28 0 0 0 0)
  = timedelta_of 2 0 0.
Proof. reflexivity. Qed.

Example SceneId_str_example :
  SceneId_str (SceneId_init "NOAA-19" 1 (noon 3 59)) = "NOAA-19_1_202001011203".
Proof. reflexivity. Qed.

(** C2: for two scene identities with the same platform name and orbit number,
    [__eq__] is true when the absolute start-time difference is strictly below
    the (left operand's) tolerance and false when it is at or above it; at a
    difference of exactly the tolerance it is false, and the tolerance of an
    identity built without one is five minutes. *)
Theorem SceneId_eq_tolerance (a b : SceneId) :
  platform_name a = platform_name b ->
  orbit_number a = orbit_number b ->
  let delta := Z.abs (datetime_sub (starttime a) (starttime b)) in
  let tol := timedelta_minutes (threshold a) in
  (delta < tol -> SceneId_eq a b = true) /\
  (tol <= delta -> SceneId_eq a b = false) /\
  (delta = tol -> SceneId_eq a b = false) /\
  (forall p o st, timedelta_minutes (threshold (SceneId_init p o st))
                  = timedelta_of 0 300 0).
Proof.
  intros Hp Ho delta tol.
  assert (Hshape : SceneId_eq a b = (delta <? tol)).
  { unfold SceneId_eq. rewrite Hp, Ho, String.eqb_refl, Z.eqb_refl. reflexivity. }
  rewrite Hshape. repeat split.
  - intros H. apply Z.ltb_lt. exact H.
  - intros H. apply Z.ltb_ge. exact H.
  - intros H. apply Z.ltb_ge. lia.
Qed.

Lemma SceneId_eq_tolerance_witness :
  SceneId_eq (SceneId_init "NOAA-19" 1 (noon 0 0)) (SceneId_init "NOAA-19" 1 (noon 4 59)) = true /\
  SceneId_eq (SceneId_init "NOAA-19" 1 (noon 0 0)) (SceneId_init "NOAA-19" 1 (noon 5 0)) = false.
Proof.
  split.
  - refine (proj1 (SceneId_eq_tolerance (SceneId_init "NOAA-19" 1 (noon 0 0))
                     (SceneId_init "NOAA-19" 1 (noon 4 59)) eq_refl eq_refl) _).
    vm_compute. reflexivity.
  - refine (proj1 (proj2 (SceneId_eq_tolerance (SceneId_init "NOAA-19" 1 (noon 0 0))
                     (SceneId_init "NOAA-19" 1 (noon 5 0)) eq_refl eq_refl)) _).
    vm_compute. discriminate.
Defined.

(** C3: there are two scene identities that [__eq__] holds equal, in both
    directions, whose hash keys (the text given to [hash], built from the start
    time cut to whole minutes) differ; any string hash that tells the two keys
    apart then gives them different [__hash__] values. *)
Theorem SceneId_eq_but_hash_keys_differ :
  exists a b : SceneId,
    SceneId_eq a b = true /\ SceneId_eq b a = true /\
    SceneId_str a <> SceneId_str b /\
    (forall hash : string -> Z,
        hash (SceneId_str a) <> hash (SceneId_str b) ->
        SceneId_hash hash a <> SceneId_hash hash b).
Proof.
  exists (SceneId_init "NOAA-19" 1 (noon 0 30)), (SceneId_init "NOAA-19" 1 (noon 1 10)).
  repeat split; try reflexivity.
  - vm_compute. discriminate.
  - intros hash H. exact H.
Qed.

(** C10: [__eq__] reads only the left operand's tolerance, so it is not
    symmetric: there are identities [a] and [b] with the same platform and
    orbit for which [a == b] is true and [b == a] is false. *)
Theorem SceneId_eq_not_symmetric :
  exists a b : SceneId,
    platform_name a = platform_name b /\ orbit_number a = orbit_number b /\
    SceneId_eq a b = true /\ SceneId_eq b a = false.
Proof.
  exists (mkSceneId "NOAA-19" 1 (noon 0 0) 10), (mkSceneId "NOAA-19" 1 (noon 7 0) 5).
  repeat split; reflexivity.
Qed.

(** ** shlex.split *)

Example shlex_plain_words :
  shlex_split "run.py  -af /data/f.nc" = Return ["run.py"; "-af"; "/data/f.nc"].
Proof. reflexivity. Qed.

Example shlex_single_quotes :
  shlex_split "a 'b c' d" = Return ["a"; "b c"; "d"].
Proof. reflexivity. Qed.

Example shlex_escaped_blank :
  shlex_split "a\ b c" = Return ["a b"; "c"].
Proof. reflexivity. Qed.

Example shlex_open_quote :
  shlex_split "a 'b c" = Raise ValueError.
Proof. reflexivity. Qed.

Lemma append_nil_l (b : string) : "" +:+ b = b.
Proof. reflexivity. Qed.

Lemma append_cons (c : ascii) (a b : string) : String c a +:+ b = String c (a +:+ b).
Proof. reflexivity. Qed.

Lemma append_assoc (a b c : string) : (a +:+ b) +:+ c = a +:+ (b +:+ c).
Proof.
  induction a as [|x a IH]; [reflexivity|].
  now rewrite !append_cons, IH.
Qed.

Lemma append_empty_r (a : string) : a +:+ "" = a.
Proof.
  induction a as [|x a IH]; [reflexivity|].
  now rewrite append_cons, IH.
Qed.

Lemma plain_char_cases (c : ascii) :
  plain_char c = true ->
  is_lex_space c = false /\ is_lex_quote c = false /\ is_lex_escape c = false.
Proof.
  unfold plain_char. intros H.
  apply andb_prop in H as [H He]. apply andb_prop in H as [Hs Hq].
  repeat split; now apply negb_true_iff.
Qed.

(** Inside a word, plain characters are appended to the token one by one. *)
Lemma read_tokens_word (w rest token : string) (quoted : bool) :
  all_plain w = true ->
  read_tokens LexWord quoted token (w +:+ rest)
  = read_tokens LexWord quoted (token +:+ w) rest.
Proof.
  revert token. induction w as [|c w IH]; intros token Hw.
  - now rewrite append_nil_l, append_empty_r.
  - simpl in Hw. apply andb_prop in Hw as [Hc Hw].
    destruct (plain_char_cases c Hc) as (Hs & Hq & He).
    rewrite append_cons. simpl. rewrite Hs, Hq, He.
    rewrite (IH _ Hw). unfold push.
    now rewrite append_assoc, append_cons, append_nil_l.
Qed.

(** Between tokens, a plain word is read whole. *)
Lemma read_tokens_blank (w rest : string) :
  plain_word w = true ->
  read_tokens LexBlank false "" (w +:+ rest) = read_tokens LexWord false w rest.
Proof.
  unfold plain_word. intros H. apply andb_prop in H as [Hne Hw].
  destruct w as [|c w]; [discriminate|].
  simpl in Hw. apply andb_prop in Hw as [Hc Hw].
  destruct (plain_char_cases c Hc) as (Hs & Hq & He).
  rewrite append_cons. simpl. rewrite Hs, Hq, He.
  now rewrite (read_tokens_word w rest _ false Hw).
Qed.

Lemma plain_word_nonempty (w : string) :
  plain_word w = true -> negb (String.eqb w "") = true.
Proof. unfold plain_word. intros H. now apply andb_prop in H as [H _]. Qed.

(** A plain word followed by a blank is emitted and lexing resumes after it. *)
Lemma read_tokens_word_then_blank (w rest : string) :
  plain_word w = true ->
  read_tokens LexBlank false "" (w +:+ " " +:+ rest)
  = (more ← read_tokens LexBlank false "" rest; Return (w :: more)).
Proof.
  intros H. rewrite (read_tokens_blank _ _ H).
  rewrite append_cons, append_nil_l. simpl.
  now rewrite (plain_word_nonempty _ H).
Qed.

(** A plain word at the end of the input is the last token. *)
Lemma read_tokens_last_word (w : string) :
  plain_word w = true -> read_tokens LexBlank false "" w = Return [w].
Proof.
  intros H. rewrite <- (append_empty_r w) at 1.
  rewrite (read_tokens_blank _ _ H). simpl.
  now rewrite (plain_word_nonempty _ H).
Qed.

(** ** Command builders *)

Example create_pps_call_command_example :
  create_pps_call_command "/usr/bin/python3" "/opt/pps/run.py" scene_f
  = ([(DEBUG, Text "PPS call command: /usr/bin/python3 /opt/pps/run.py -af /data/f.nc")],
     Return "/usr/bin/python3 /opt/pps/run.py -af /data/f.nc").
Proof. reflexivity. Qed.

(** C4, as stated, fails: the builder returns one command text, not an
    argument sequence, and the argument vector [run_command] derives from it
    for a script path holding a blank has five elements, not the four of the
    claim. *)
Lemma create_pps_call_command_blank_in_path :
  snd (create_pps_call_command "/usr/bin/python3" "/opt/my pps/run.py" scene_f)
  = Return "/usr/bin/python3 /opt/my pps/run.py -af /data/f.nc" /\
  (snd (create_pps_call_command "/usr/bin/python3" "/opt/my pps/run.py" scene_f)
     ≫= run_command_args)
  = Return ["/usr/bin/python3"; "/opt/my"; "pps/run.py"; "-af"; "/data/f.nc"] /\
  (snd (create_pps_call_command "/usr/bin/python3" "/opt/my pps/run.py" scene_f)
     ≫= run_command_args)
  <> Return ["/usr/bin/python3"; "/opt/my pps/run.py"; "-af"; "/data/f.nc"].
Proof. repeat split. discriminate. Qed.

(** C4 (amended): the builder returns the command text
    [python_exec + " " + pps_script_name + " -af " + file4pps]; when the three
    paths are non-empty and free of white space, quotes and backslashes, the
    argument vector [run_command] splits from that text is exactly
    [[python_exec; pps_script_name; "-af"; file4pps]]. *)
Theorem create_pps_call_command_argv
        (python_exec pps_script_name file4pps : string) (scene : pydict) :
  scene !! "file4pps" = Some (PyStr file4pps) ->
  plain_word python_exec = true ->
  plain_word pps_script_name = true ->
  plain_word file4pps = true ->
  snd (create_pps_call_command python_exec pps_script_name scene)
  = Return (python_exec +:+ " " +:+ pps_script_name +:+ " -af " +:+ file4pps) /\
  (snd (create_pps_call_command python_exec pps_script_name scene)
     ≫= run_command_args)
  = Return [python_exec; pps_script_name; "-af"; file4pps].
Proof.
  intros Hf Hp Hs Hi.
  unfold create_pps_call_command, subscript. rewrite Hf. simpl.
  split; [reflexivity|].
  unfold run_command_args, shlex_split.
  rewrite (read_tokens_word_then_blank _ _ Hp).
  rewrite (read_tokens_word_then_blank _ _ Hs).
  change ("-af " +:+ file4pps) with ("-af" +:+ " " +:+ file4pps).
  rewrite (read_tokens_word_then_blank "-af" _ eq_refl).
  rewrite (read_tokens_last_word _ Hi). reflexivity.
Qed.

Lemma create_pps_call_command_argv_witness :
  (snd (create_pps_call_command "/usr/bin/python3" "/opt/pps/run.py" scene_f)
     ≫= run_command_args)
  = Return ["/usr/bin/python3"; "/opt/pps/run.py"; "-af"; "/data/f.nc"].
Proof.
  refine (proj2 (create_pps_call_command_argv "/usr/bin/python3" "/opt/pps/run.py"
                   "/data/f.nc" scene_f _ _ _ _)); reflexivity.
Defined.

Example sequence_modis :
  create_pps_call_command_sequence ∅ "ppsRunAll" scene_aqua options_90
  = Return ["ppsRunAll"; "eos2"; "7"; "20200101"; "1200"; "90"].
Proof. vm_compute. reflexivity. Qed.

Example sequence_viirs_option_path :
  create_pps_call_command_sequence ∅ "ppsRunAll" scene_npp options_90
  = Return ["ppsRunAll"; "npp"; "12345"; "0"; "0"; "90"; "/opt/npp"].
Proof. vm_compute. reflexivity. Qed.

Example sequence_unknown_platform :
  create_pps_call_command_sequence ∅ "ppsRunAll"
    {[ "platform_name" := PyStr "NOAA-22"; "orbit_number" := PyInt 1 ]} options_90
  = Raise KeyError.
Proof. vm_compute. reflexivity. Qed.

(** C7, as stated, fails: with the same script, scene and options, Protocol A
    yields different argument sequences under two process environments, since
    the variable [LVL1_NPP_PATH] takes precedence over the option of that name. *)
Lemma create_pps_call_command_sequence_reads_environ :
  create_pps_call_command_sequence ∅ "ppsRunAll" scene_npp options_90
  = Return ["ppsRunAll"; "npp"; "12345"; "0"; "0"; "90"; "/opt/npp"] /\
  create_pps_call_command_sequence {[ "LVL1_NPP_PATH" := "/env/npp" ]}
    "ppsRunAll" scene_npp options_90
  = Return ["ppsRunAll"; "npp"; "12345"; "0"; "0"; "90"; "/env/npp"] /\
  ~ (forall (environ1 environ2 : gmap string string) (pps_script_name : string)
            (scene options : pydict),
        create_pps_call_command_sequence environ1 pps_script_name scene options
        = create_pps_call_command_sequence environ2 pps_script_name scene options).
Proof.
  split; [vm_compute; reflexivity|]. split; [vm_compute; reflexivity|].
  intros H.
  specialize (H ∅ {[ "LVL1_NPP_PATH" := "/env/npp" ]} "ppsRunAll" scene_npp options_90).
  vm_compute in H. discriminate H.
Qed.

(** C7 (amended): Protocol A is a function of the script name, the scene, the
    options and the two environment variables [LVL1_NPP_PATH] and
    [LVL1_EOS_PATH] only: two process environments that agree on these two
    variables give identical results.  Protocol B reads no environment: its
    result is determined by its three arguments, and its one effect is the
    debug record of the command text it returns (none when it raises). *)
Theorem command_builders_deterministic
        (environ1 environ2 : gmap string string) (pps_script_name : string)
        (scene options : pydict) :
  environ1 !! "LVL1_NPP_PATH" = environ2 !! "LVL1_NPP_PATH" ->
  environ1 !! "LVL1_EOS_PATH" = environ2 !! "LVL1_EOS_PATH" ->
  create_pps_call_command_sequence environ1 pps_script_name scene options
  = create_pps_call_command_sequence environ2 pps_script_name scene options /\
  (forall python_exec cmdstr,
      snd (create_pps_call_command python_exec pps_script_name scene) = Return cmdstr ->
      fst (create_pps_call_command python_exec pps_script_name scene)
      = [(DEBUG, Text ("PPS call command: " +:+ cmdstr))]) /\
  (forall python_exec e,
      snd (create_pps_call_command python_exec pps_script_name scene) = Raise e ->
      fst (create_pps_call_command python_exec pps_script_name scene) = []).
Proof.
  intros Hnpp Heos. split; [|split].
  - unfold create_pps_call_command_sequence, env_or_option.
    rewrite Hnpp, Heos. reflexivity.
  - intros python_exec cmdstr. unfold create_pps_call_command.
    destruct (subscript scene "file4pps") as [v|e]; simpl; [|discriminate].
    intros [= <-]. reflexivity.
  - intros python_exec e. unfold create_pps_call_command.
    destruct (subscript scene "file4pps") as [v|e']; simpl; [discriminate|].
    reflexivity.
Qed.

Lemma command_builders_deterministic_witness :
  create_pps_call_command_sequence
    {[ "LVL1_NPP_PATH" := "/env/npp"; "HOME" := "/root" ]}
    "ppsRunAll" scene_npp options_90
  = create_pps_call_command_sequence
      {[ "LVL1_NPP_PATH" := "/env/npp"; "HOME" := "/home/pps"; "LANG" := "C" ]}
      "ppsRunAll" scene_npp options_90.
Proof.
  refine (proj1 (command_builders_deterministic _ _ "ppsRunAll" scene_npp options_90 _ _));
    vm_compute; reflexivity.
Defined.

(** ** get_xml_outputfiles *)

Example fmt_05d_examples :
  fmt_05d 1 = "00001" /\ fmt_05d 12345 = "12345" /\ fmt_05d 123456 = "123456" /\
  fmt_05d (-3) = "-00003".
Proof. repeat split; reflexivity. Qed.

Example xml_output_pattern_example :
  xml_output_pattern "/out" "metop01" 42 "" = "/out/S_NWC*metopb_00042_*.xml".
Proof. vm_compute. reflexivity. Qed.

Section OutputResolver.
Variable glob : string -> list string.
Variables path platform_name st_time : string.
Variable n : Z.

Local Abbreviation at_shift := (scan glob path platform_name st_time n).

Lemma scan_unfold (idx : Z) :
  glob (xml_output_pattern path platform_name (n + idx) st_time) = at_shift idx.
Proof. reflexivity. Qed.

Lemma retry_orbits_first_match (pre post : list Z) (idx : Z) (filelist : list string) :
  Forall (fun i => at_shift i = []) pre ->
  at_shift idx <> [] ->
  retry_orbits glob path platform_name n st_time (pre ++ idx :: post) filelist
  = (tries n (pre ++ [idx]), at_shift idx).
Proof.
  intros Hpre Hidx. revert filelist.
  induction Hpre as [|i pre Hi Hpre IH]; intros filelist; simpl;
    rewrite !scan_unfold.
  - destruct (at_shift idx) as [|f fs]; [congruence|]. reflexivity.
  - rewrite Hi. simpl. rewrite IH. reflexivity.
Qed.

Lemma retry_orbits_no_match (offsets : list Z) (filelist : list string) :
  Forall (fun i => at_shift i = []) offsets ->
  filelist = [] ->
  retry_orbits glob path platform_name n st_time offsets filelist
  = (tries n offsets, []).
Proof.
  intros Hall. revert filelist.
  induction Hall as [|i offsets Hi Hall IH]; intros filelist ->; simpl.
  - reflexivity.
  - rewrite !scan_unfold, Hi. simpl. rewrite (IH [] eq_refl). reflexivity.
Qed.
End OutputResolver.

(** C6: when the scan at the given orbit number finds nothing, the resolver
    scans the orbit numbers shifted by +1, -1, +2, -2, +3, -3, +4, -4, +5, -5
    in that order, returns the matches of the first shift that has any and
    scans no further (the debug records name exactly the shifts tried); it
    returns the empty list, not an error, when no shift matches; and with one
    match at orbit + 1 it returns that match after trying +1 only. *)
Theorem get_xml_outputfiles_retry_order
        (glob : string -> list string) (path platform_name : string)
        (orb : pyval) (n : Z) (st_time : string) :
  py_int orb = Return n ->
  glob (xml_output_pattern path platform_name n st_time) = [] ->
  let result := get_xml_outputfiles glob path platform_name orb st_time in
  let at_shift := scan glob path platform_name st_time n in
  let header := glob_header path platform_name n st_time in
  (forall pre idx post,
      [1; -1; 2; -2; 3; -3; 4; -4; 5; -5] = (pre ++ idx :: post) ->
      Forall (fun i => at_shift i = []) pre ->
      at_shift idx <> [] ->
      result = (header :: tries n (pre ++ [idx]), Return (at_shift idx))) /\
  (Forall (fun i => at_shift i = []) [1; -1; 2; -2; 3; -3; 4; -4; 5; -5] ->
   result = (header :: tries n [1; -1; 2; -2; 3; -3; 4; -4; 5; -5], Return [])) /\
  (forall f, at_shift 1 = [f] ->
             result = ([header; try_orbit_msg (n + 1)], Return [f])).
Proof.
  intros Hint Hnone result at_shift header.
  assert (Hres : result =
            let '(lg, res) := retry_orbits glob path platform_name n st_time
                                           ORBIT_OFFSETS [] in
            (header :: lg, Return res)).
  { unfold result, get_xml_outputfiles. rewrite Hint. cbv zeta.
    rewrite Hnone. reflexivity. }
  split; [|split].
  - intros pre idx post Hsplit Hpre Hidx. rewrite Hres.
    change ORBIT_OFFSETS with [1; -1; 2; -2; 3; -3; 4; -4; 5; -5]. rewrite Hsplit.
    rewrite (retry_orbits_first_match glob path platform_name st_time n
               pre post idx [] Hpre Hidx).
    reflexivity.
  - intros Hall. rewrite Hres.
    rewrite (retry_orbits_no_match glob path platform_name st_time n
               ORBIT_OFFSETS [] Hall eq_refl).
    reflexivity.
  - intros f Hf. rewrite Hres.
    assert (Hne : at_shift 1 <> []) by (rewrite Hf; discriminate).
    change ORBIT_OFFSETS with ([] ++ 1 :: [-1; 2; -2; 3; -3; 4; -4; 5; -5]).
    rewrite (retry_orbits_first_match glob path platform_name st_time n
               [] [-1; 2; -2; 3; -3; 4; -4; 5; -5] 1 [] (List.Forall_nil _) Hne).
    fold at_shift. rewrite Hf. reflexivity.
Qed.

Lemma get_xml_outputfiles_retry_order_witness :
  get_xml_outputfiles glob_12346 "/out" "noaa19" (PyInt 12345) ""
  = ([glob_header "/out" "noaa19" 12345 ""; try_orbit_msg 12346],
     Return ["/out/S_NWC_timectrl_noaa19_12346_20200101T0000000Z_20200101T0010000Z.xml"]).
Proof.
  refine (proj2 (proj2 (get_xml_outputfiles_retry_order glob_12346 "/out" "noaa19"
                          (PyInt 12345) 12345 "" eq_refl _)) _ _);
    vm_compute; reflexivity.
Defined.

(** ** ready2run *)

Example get_sceneid_example :
  get_sceneid (PyStr "EOS-Aqua") 12345 (PyDatetime (noon 0 0))
  = Return "EOS-Aqua_12345_20200101120000" /\
  get_sceneid (PyStr "EOS-Aqua") 12345 PyNone = Return "EOS-Aqua_12345".
Proof. split; vm_compute; reflexivity. Qed.

Example int_of_string_examples :
  int_of_string " 12_345 " = Return 12345 /\ int_of_string "-7" = Return (-7) /\
  int_of_string "12a" = Raise ValueError /\ int_of_string "" = Raise ValueError /\
  int_of_string "1__2" = Raise ValueError.
Proof. repeat split; vm_compute; reflexivity. Qed.

Example int_of_string_separator_char :
  int_of_string (String "028" "12") = Raise ValueError /\
  int_of_string (String "009" "12") = Return 12.
Proof. split; vm_compute; reflexivity. Qed.

(** No module-level name [sceneid] exists, although [get_sceneid] does. *)
Lemma sceneid_unbound : load_global "sceneid" = Raise NameError.
Proof. vm_compute. reflexivity. Qed.

Lemma get_sceneid_bound : load_global "get_sceneid" = Return Hashable.
Proof. vm_compute. reflexivity. Qed.

Lemma message_uris_singleton (msg : Message) (uris : list pyval) :
  message_uris msg = Return uris -> exists uri, uris = [uri].
Proof.
  unfold message_uris. intros H.
  destruct (default PyNone (msg_data msg !! "destination")) eqn:Hd;
    repeat (match type of H with
            | context [subscript ?d ?k] => destruct (subscript d k); simpl in H
            | context [str_of ?v] => destruct (str_of v); simpl in H
            end; try discriminate);
    injection H as <-; eauto.
Qed.

Lemma check_uri_list_length (net : Network) (uris : list pyval) (paths : list string) :
  check_uri_list net uris = Return paths -> length paths = length uris.
Proof.
  revert paths. induction uris as [|uri uris IH]; intros paths H; simpl in H.
  - now injection H as <-.
  - destruct (check_uri net uri); simpl in H; [|discriminate].
    destruct (check_uri_list net uris) as [ps|]; simpl in H; [|discriminate].
    injection H as <-. simpl. now rewrite (IH ps).
Qed.

(** The first iteration of the loop fails on the name, before any append. *)
Lemma append_level1_files_NameError (item : string) (rest : list string)
      (files4pps : gmap string (list string)) :
  append_level1_files (item :: rest) files4pps = (files4pps, Raise NameError).
Proof. reflexivity. Qed.

(** C1 (as the code has it): for an event of type 'file' whose locations
    resolve, that comes from the current server, whose sensor is one PPS uses
    and the one its platform family needs, whose orbit number is an integer
    and whose platform is in the satellite table, [ready2run] raises
    [NameError] at [files4pps[sceneid]], since it never binds [sceneid]: no
    path is appended, the index is unchanged, and neither [True] nor [False]
    is returned. *)
Theorem ready2run_raises_NameError
        (net : Network) (msg : Message) (files4pps : gmap string (list string))
        (uris : list pyval) (level1_files : list string)
        (platform sensor orbit : pyval) (n : Z) :
  msg_type msg = "file" ->
  message_uris msg = Return uris ->
  check_uri_list net uris = Return level1_files ->
  server_is_current net msg = true ->
  msg_data msg !! "platform_name" = Some platform ->
  msg_data msg !! "sensor" = Some sensor ->
  py_in sensor PPS_SENSORS = true ->
  sensor_required platform sensor = true ->
  msg_data msg !! "orbit_number" = Some orbit ->
  py_int orbit = Return n ->
  py_in_dict platform SATELLITE_NAME = true ->
  ready2run net msg files4pps = (files4pps, Raise NameError).
Proof.
  intros Htype Huris Hcheck Hhost Hplat Hsens Hpps Hreq Horb Hint Htab.
  destruct (message_uris_singleton _ _ Huris) as [uri ->].
  pose proof (check_uri_list_length _ _ _ Hcheck) as Hlen.
  destruct level1_files as [|item [|? ?]]; try discriminate Hlen.
  unfold ready2run.
  rewrite Htype, Huris, Hcheck, Hhost. simpl.
  unfold subscript. rewrite Hplat, Hsens. simpl.
  rewrite Hpps, Hreq, Horb. simpl. rewrite Hint, Htab. simpl.
  reflexivity.
Qed.

Lemma ready2run_raises_NameError_witness :
  ready2run local_net msg_aqua files4pps_aqua = (files4pps_aqua, Raise NameError).
Proof.
  apply (ready2run_raises_NameError local_net msg_aqua files4pps_aqua
           [PyStr "/data/MYD021km_A2020001_1200.hdf"]
           ["/data/MYD021km_A2020001_1200.hdf"]
           (PyStr "EOS-Aqua") (PyStr "modis") (PyInt 12345) 12345);
    vm_compute; reflexivity.
Defined.

(** Whatever the event and the host, [ready2run] leaves the index as it was
    and never returns [True]. *)
Lemma ready2run_never_ready (net : Network) (msg : Message)
      (files4pps : gmap string (list string)) :
  fst (ready2run net msg files4pps) = files4pps /\
  snd (ready2run net msg files4pps) <> Return (Some true).
Proof.
  assert (Htail : forall items,
             append_level1_files items files4pps = (files4pps, Return tt)
             \/ append_level1_files items files4pps = (files4pps, Raise NameError)).
  { intros [|item rest]; [left | right]; reflexivity. }
  unfold ready2run.
  repeat match goal with
         | |- context [append_level1_files ?l files4pps] =>
             destruct (Htail l) as [-> | ->]
         | |- context [match ?x with _ => _ end] => destruct x eqn:?
         end; simpl; split; try reflexivity; try discriminate.
Qed.

(** ** Time statistics *)

Example str_replace_examples :
  str_replace "/ctrl/ctrl_001.txt" ".txt" ".xml" = "/ctrl/ctrl_001.xml" /\
  str_replace "a.txt.txt" ".txt" ".xml" = "a.xml.xml" /\
  str_replace "aaa" "aa" "b" = "ba" /\
  str_replace "plain" ".txt" ".xml" = "plain".
Proof. repeat split; reflexivity. Qed.

Example create_pps_file_from_lvl1c_example :
  create_pps_file_from_lvl1c sample_trollsift (PyStr ("/data/" +:+ avhrr_l1c))
                             "/ctrl" "timectrl" ".txt"
  = Return timectrl_txt.
Proof. vm_compute. reflexivity. Qed.

Example timestat_import_failure :
  create_xml_timestat_from_ascii
    {| importable := false; PPSTimeControl := fun _ => None;
       sum_up_processing_times := fun _ => None; write_xml := fun _ => None |}
    timectrl_txt "/ctrl"
  = ([(WARNING, Text "Failed to import the PPSTimeControl from pps")], Return []).
Proof. reflexivity. Qed.

Example timestat_no_ascii_file :
  create_xml_timestat_from_lvl1c sample_trollsift failing_writer (fun _ => false)
                                 scene_noaa19 "/ctrl"
  = ([(WARNING, Text "No XML Time statistics file created!")], Return []).
Proof. vm_compute. reflexivity. Qed.

(** C5 (as the code has it): when the ascii time-control file exists and the
    converter's write step raises, [create_xml_timestat_from_ascii] logs two
    warnings and then returns the one-element list holding the XML path (the
    ascii path with '.txt' replaced by '.xml'), as
    [create_xml_timestat_from_lvl1c] does in turn: the result is not empty. *)
Theorem timestat_write_failure_returns_xml_path
        (ts : Trollsift) (tc : TimeControl) (path_exists : string -> bool)
        (scene : pydict) (pps_control_path : string) (file4pps : pyval)
        (txt : string) (e : exn) :
  scene !! "file4pps" = Some file4pps ->
  create_pps_file_from_lvl1c ts file4pps pps_control_path "timectrl" ".txt" = Return txt ->
  path_exists txt = true ->
  importable tc = true ->
  PPSTimeControl tc txt = None ->
  sum_up_processing_times tc txt = None ->
  write_xml tc txt = Some e ->
  create_xml_timestat_from_ascii tc txt pps_control_path
  = (write_failure_log txt e, Return [str_replace txt ".txt" ".xml"]) /\
  create_xml_timestat_from_lvl1c ts tc path_exists scene pps_control_path
  = (write_failure_log txt e, Return [str_replace txt ".txt" ".xml"]) /\
  snd (create_xml_timestat_from_lvl1c ts tc path_exists scene pps_control_path)
  <> Return [].
Proof.
  intros Hscene Hname Hexists Himp Hinit Hsum Hwrite.
  assert (Hascii : create_xml_timestat_from_ascii tc txt pps_control_path
                   = (write_failure_log txt e, Return [str_replace txt ".txt" ".xml"])).
  { unfold create_xml_timestat_from_ascii.
    rewrite Himp, Hinit, Hsum, Hwrite. reflexivity. }
  assert (Hlvl1c : create_xml_timestat_from_lvl1c ts tc path_exists scene pps_control_path
                   = (write_failure_log txt e, Return [str_replace txt ".txt" ".xml"])).
  { unfold create_xml_timestat_from_lvl1c, subscript.
    rewrite Hscene. simpl. rewrite Hname, Hexists. exact Hascii. }
  repeat split; [exact Hascii | exact Hlvl1c |].
  rewrite Hlvl1c. discriminate.
Qed.

Lemma timestat_write_failure_returns_xml_path_witness :
  create_xml_timestat_from_lvl1c sample_trollsift failing_writer (fun _ => true)
                                 scene_noaa19 "/ctrl"
  = (write_failure_log timectrl_txt TypeError, Return [timectrl_xml]).
Proof.
  refine (proj1 (proj2 (timestat_write_failure_returns_xml_path
                          sample_trollsift failing_writer (fun _ => true) scene_noaa19
                          "/ctrl" (PyStr ("/data/" +:+ avhrr_l1c)) timectrl_txt TypeError
                          _ _ _ _ _ _ _)));
    vm_compute; reflexivity.
Defined.

(** ** publish_pps_files *)

Example parse_result_filename_single :
  parse_result_filename sample_trollsift CTTH_nc
  = Return (<["segment" := PyStr "CTTH"]> (<["extention" := PyStr "nc"]> sample_fields)).
Proof. reflexivity. Qed.

Example parse_result_filename_dual :
  parse_result_filename sample_trollsift CMA_PROB_nc
  = Return (<["segment" := PyStr "CMA_PROB"]> (<["extention" := PyStr "nc"]> sample_fields)).
Proof. reflexivity. Qed.

Example parse_result_filename_statistics :
  parse_result_filename sample_trollsift CTTH_statistics_xml
  = Return (<["segment" := PyStr "CTTH"]> sample_fields).
Proof. reflexivity. Qed.

Example parse_result_filename_unknown :
  parse_result_filename sample_trollsift "notes.txt" = Raise ValueError.
Proof. vm_compute. reflexivity. Qed.

Example build_to_send_CTTH :
  exists to_send,
    build_to_send input_data_l1c scene_noaa19
      (<["segment" := PyStr "CTTH"]> (<["extention" := PyStr "nc"]> sample_fields))
      ("/out/" +:+ CTTH_nc) CTTH_nc = Return to_send /\
    to_send !! "format" = Some (PyStr "CF") /\
    to_send !! "type" = Some (PyStr "netCDF4") /\
    to_send !! "start_time" = Some (PyDatetime (mkDatetime 2020 1 1 0 0 0 0)) /\
    to_send !! "end_time" = Some (PyDatetime (mkDatetime 2020 1 1 0 10 0 0)) /\
    to_send !! "dataset" = None /\
    to_send !! "sensor" = Some (PyStr "avhrr/3") /\
    to_send !! "data_processing_level" = Some (PyStr "2").
Proof. eexists. split; [reflexivity|]. repeat split; vm_compute; reflexivity. Qed.

Lemma build_to_send_times (input_data scene metadata to_send : pydict)
      (result_file filename : string) :
  build_to_send input_data scene metadata result_file filename = Return to_send ->
  to_send !! "start_time" = metadata !! "start_time" /\
  to_send !! "end_time" = metadata !! "end_time" /\
  is_Some (metadata !! "start_time") /\ is_Some (metadata !! "end_time").
Proof.
  unfold build_to_send, subscript. intros H.
  destruct (metadata !! "end_time") as [en|] eqn:Hen; simpl in H; [|discriminate].
  destruct (metadata !! "start_time") as [st|] eqn:Hst; simpl in H; [|discriminate].
  destruct (scene !! "platform_name") as [p|]; simpl in H; [|discriminate].
  destruct (scene !! "orbit_number") as [o|]; simpl in H; [|discriminate].
  injection H as <-.
  repeat split; eauto.
  - rewrite lookup_insert_ne by discriminate. apply lookup_insert_eq.
  - apply lookup_insert_eq.
Qed.

Lemma bind_Return {A B : Type} (a : A) (k : A -> outcome B) :
  (Return a ≫= k) = k a.
Proof. reflexivity. Qed.

(** The payload is built whenever the file name's times and the scene's
    platform and orbit are there, and carries the file name's times. *)
Lemma build_to_send_returns (input_data scene metadata : pydict)
      (result_file filename : string) (st en platform orbit : pyval) :
  metadata !! "start_time" = Some st ->
  metadata !! "end_time" = Some en ->
  scene !! "platform_name" = Some platform ->
  scene !! "orbit_number" = Some orbit ->
  exists to_send,
    build_to_send input_data scene metadata result_file filename = Return to_send /\
    to_send !! "start_time" = Some st /\ to_send !! "end_time" = Some en.
Proof.
  intros Hst Hen Hp Ho. unfold build_to_send, subscript.
  rewrite Hen, Hst, Hp, Ho. rewrite !bind_Return.
  eexists. split; [reflexivity|]. split.
  - rewrite lookup_insert_ne by discriminate. apply lookup_insert_eq.
  - apply lookup_insert_eq.
Qed.

(** C8: [publish_pps_files] parses the basename of each result file with
    the single-segment template and takes its fields when it matches; only
    when that raises [ValueError] with the dual-segment template, whose two
    segment fields are then joined with "_" into the one field [segment];
    only when both raise [ValueError] with the statistics template, and when
    that raises too the call ends with [ValueError] and nothing is queued.
    The payload of a file that parsed carries the start and end times of the
    file name, whatever times the incoming event carried, and it is the
    encoding of this payload that [publish_pps_files] puts on the queue
    before it goes on with the remaining files. *)
Theorem publish_templates_and_times
        {Q : Type} (ts : Trollsift) (encode : Encoder) (queue : Queue Q)
        (input_data scene : pydict) (result_file : string) (rest : list string)
        (station : option string) (q : Q) :
  let filename := path_basename result_file in
  let publish files q0 :=
    publish_pps_files ts encode queue input_data q0 scene files station in
  (forall m, parse ts PPS_OUT_PATTERN filename = Return m ->
             parse_result_filename ts filename = Return m) /\
  (parse ts PPS_OUT_PATTERN filename = Raise ValueError ->
   forall m s1 s2,
     parse ts PPS_OUT_PATTERN_MULTIPLE filename = Return m ->
     m !! "segment1" = Some (PyStr s1) ->
     m !! "segment2" = Some (PyStr s2) ->
     parse_result_filename ts filename
     = Return (delete "segment2" (delete "segment1"
                 (<["segment" := PyStr (s1 +:+ "_" +:+ s2)]> m)))) /\
  (parse ts PPS_OUT_PATTERN filename = Raise ValueError ->
   parse ts PPS_OUT_PATTERN_MULTIPLE filename = Raise ValueError ->
   parse_result_filename ts filename = parse ts PPS_STAT_PATTERN filename) /\
  (parse ts PPS_OUT_PATTERN filename = Raise ValueError ->
   parse ts PPS_OUT_PATTERN_MULTIPLE filename = Raise ValueError ->
   parse ts PPS_STAT_PATTERN filename = Raise ValueError ->
   publish (result_file :: rest) q
   = ([(INFO, Text ("file to publish = " +:+ filename))], q, Raise ValueError)) /\
  (forall metadata st en platform orbit,
      parse_result_filename ts filename = Return metadata ->
      metadata !! "start_time" = Some st ->
      metadata !! "end_time" = Some en ->
      scene !! "platform_name" = Some platform ->
      scene !! "orbit_number" = Some orbit ->
      exists to_send,
        build_to_send input_data scene metadata result_file filename = Return to_send /\
        to_send !! "start_time" = Some st /\
        to_send !! "end_time" = Some en /\
        compose_pubmsg ts encode (default "unknown" station) input_data scene result_file
        = encode_message encode (default "unknown" station) to_send /\
        (forall pubmsg q1,
            encode_message encode (default "unknown" station) to_send = Return pubmsg ->
            put queue pubmsg q = (q1, None) ->
            publish (result_file :: rest) q
            = let '(lg, q2, r) := publish rest q1 in
              (enqueued_log result_file pubmsg ++ lg, q2, r))).
Proof.
  intros filename publish.
  split; [|split; [|split; [|split]]].
  - intros m Hm. unfold parse_result_filename. rewrite Hm. reflexivity.
  - intros H1 m s1 s2 Hm Hs1 Hs2.
    unfold parse_result_filename, subscript. rewrite H1, Hm. rewrite bind_Return.
    rewrite Hs1, Hs2. reflexivity.
  - intros H1 H2. unfold parse_result_filename. rewrite H1, H2. reflexivity.
  - intros H1 H2 H3.
    unfold publish, publish_pps_files. cbn [publish_loop].
    unfold publish_one, compose_pubmsg, parse_result_filename.
    fold filename. rewrite H1, H2, H3. reflexivity.
  - intros metadata st en platform orbit Hparse Hst Hen Hp Ho.
    destruct (build_to_send_returns input_data scene metadata result_file filename
                st en platform orbit Hst Hen Hp Ho) as (to_send & Hbuild & Hst' & Hen').
    assert (Hcompose :
              compose_pubmsg ts encode (default "unknown" station) input_data scene
                             result_file
              = encode_message encode (default "unknown" station) to_send).
    { unfold compose_pubmsg. fold filename. rewrite Hparse, bind_Return.
      rewrite Hbuild, bind_Return. reflexivity. }
    exists to_send. repeat split; try assumption.
    intros pubmsg q1 Henc Hput.
    unfold publish, publish_pps_files. cbn [publish_loop].
    unfold publish_one. rewrite Hcompose, Henc. unfold enqueue. rewrite Hput.
    destruct (publish_loop ts encode queue (default "unknown" station) input_data
                           scene rest q1) as [[lg q2] r].
    reflexivity.
Qed.

Lemma publish_templates_and_times_witness :
  exists to_send : pydict,
    to_send !! "start_time" = Some (PyDatetime (mkDatetime 2020 1 1 0 0 0 0)) /\
    to_send !! "end_time" = Some (PyDatetime (mkDatetime 2020 1 1 0 10 0 0)) /\
    compose_pubmsg sample_trollsift sample_encode "norrkoping" input_data_l1c
                   scene_noaa19 ("/out/" +:+ CMA_PROB_nc)
    = encode_message sample_encode "norrkoping" to_send /\
    publish_pps_files sample_trollsift sample_encode recording_queue input_data_l1c []
                      scene_noaa19 ["/out/" +:+ CMA_PROB_nc] (Some "norrkoping")
    = (enqueued_log ("/out/" +:+ CMA_PROB_nc)
                    ("/CF/2/norrkoping/polar/direct_readout/ file " +:+ CMA_PROB_nc),
       [("put", "/CF/2/norrkoping/polar/direct_readout/ file " +:+ CMA_PROB_nc)],
       Return tt).
Proof.
  destruct (proj2 (proj2 (proj2 (proj2
              (publish_templates_and_times sample_trollsift sample_encode
                 recording_queue input_data_l1c scene_noaa19
                 ("/out/" +:+ CMA_PROB_nc) [] (Some "norrkoping") []))))
              (<["segment" := PyStr "CMA_PROB"]>
                 (<["extention" := PyStr "nc"]> sample_fields))
              (PyDatetime (mkDatetime 2020 1 1 0 0 0 0))
              (PyDatetime (mkDatetime 2020 1 1 0 10 0 0))
              (PyStr "NOAA-19") (PyInt 1)
              parse_result_filename_dual ltac:(vm_compute; reflexivity)
              ltac:(vm_compute; reflexivity) ltac:(vm_compute; reflexivity)
              ltac:(vm_compute; reflexivity))
    as (to_send & _ & Hst & Hen & Hcompose & Hpublish).
  exists to_send. split; [exact Hst|]. split; [exact Hen|]. split; [exact Hcompose|].
  rewrite (Hpublish ("/CF/2/norrkoping/polar/direct_readout/ file " +:+ CMA_PROB_nc)
                    [("put", "/CF/2/norrkoping/polar/direct_readout/ file " +:+ CMA_PROB_nc)]).
  - reflexivity.
  - rewrite <- Hcompose. vm_compute. reflexivity.
  - reflexivity.
Defined.

Example publish_two_files_send_only :
  publish_pps_files sample_trollsift sample_encode send_only_queue input_data_l1c []
                    scene_noaa19 ["/out/" +:+ CTTH_nc; "/out/" +:+ CTTH_statistics_xml]
                    None
  = (fallback_log ("/out/" +:+ CTTH_nc) ("/CF/2/unknown/polar/direct_readout/ file " +:+ CTTH_nc)
     ++ fallback_log ("/out/" +:+ CTTH_statistics_xml)
          ("/PPS-XML/2/unknown/polar/direct_readout/ file " +:+ CTTH_statistics_xml),
     [("put", "/CF/2/unknown/polar/direct_readout/ file " +:+ CTTH_nc);
      ("send", "/CF/2/unknown/polar/direct_readout/ file " +:+ CTTH_nc);
      ("put", "/PPS-XML/2/unknown/polar/direct_readout/ file " +:+ CTTH_statistics_xml);
      ("send", "/PPS-XML/2/unknown/polar/direct_readout/ file " +:+ CTTH_statistics_xml)],
     Return tt).
Proof. vm_compute. reflexivity. Qed.

(** C9, as stated, fails: with two result files and a queue on which [put]
    and [send] both raise, the exception of the first file's [send] leaves
    [publish_pps_files]; the queue saw one [put] and one [send], both for the
    first file, and the second file was never attempted: the outcome is that
    of publishing the first file alone. *)
Lemma publish_send_failure_aborts_remaining :
  publish_pps_files sample_trollsift sample_encode broken_queue input_data_l1c []
                    scene_noaa19 ["/out/" +:+ CTTH_nc; "/out/" +:+ CTTH_statistics_xml]
                    None
  = (fallback_log ("/out/" +:+ CTTH_nc) ("/CF/2/unknown/polar/direct_readout/ file " +:+ CTTH_nc),
     [("put", "/CF/2/unknown/polar/direct_readout/ file " +:+ CTTH_nc);
      ("send", "/CF/2/unknown/polar/direct_readout/ file " +:+ CTTH_nc)],
     Raise (OtherError "not connected")) /\
  publish_pps_files sample_trollsift sample_encode broken_queue input_data_l1c []
                    scene_noaa19 ["/out/" +:+ CTTH_nc; "/out/" +:+ CTTH_statistics_xml]
                    None
  = publish_pps_files sample_trollsift sample_encode broken_queue input_data_l1c []
                      scene_noaa19 ["/out/" +:+ CTTH_nc] None.
Proof. split; vm_compute; reflexivity. Qed.

(** C9 (amended): when [put] raises for a file's message, the publisher calls
    [send] with the same message on the same queue object, in the state [put]
    left it.  If [send] succeeds, publishing goes on with the remaining files
    from the state [send] left; if [send] raises too, that exception leaves
    [publish_pps_files] at once, whatever files remain, and none of them is
    attempted. *)
Theorem publish_put_failure_falls_back_to_send
        {Q : Type} (ts : Trollsift) (encode : Encoder) (queue : Queue Q)
        (station : option string) (input_data scene : pydict)
        (result_file : string) (rest : list string)
        (pubmsg : string) (q q1 : Q) (e1 : exn) :
  compose_pubmsg ts encode (default "unknown" station) input_data scene result_file
  = Return pubmsg ->
  put queue pubmsg q = (q1, Some e1) ->
  (forall q2,
      send queue pubmsg q1 = (q2, None) ->
      publish_pps_files ts encode queue input_data q scene (result_file :: rest) station
      = let '(lg, q3, r) :=
          publish_pps_files ts encode queue input_data q2 scene rest station in
        (fallback_log result_file pubmsg ++ lg, q3, r)) /\
  (forall q2 e2,
      send queue pubmsg q1 = (q2, Some e2) ->
      publish_pps_files ts encode queue input_data q scene (result_file :: rest) station
      = (fallback_log result_file pubmsg, q2, Raise e2)).
Proof.
  intros Hmsg Hput. unfold publish_pps_files. split.
  - intros q2 Hsend. simpl. unfold publish_one, enqueue.
    rewrite Hmsg, Hput, Hsend. reflexivity.
  - intros q2 e2 Hsend. simpl. unfold publish_one, enqueue.
    rewrite Hmsg, Hput, Hsend. reflexivity.
Qed.

Lemma publish_put_failure_falls_back_to_send_witness :
  publish_pps_files sample_trollsift sample_encode broken_queue input_data_l1c []
                    scene_noaa19 ["/out/" +:+ CTTH_nc; "/out/" +:+ CTTH_statistics_xml]
                    (Some "norrkoping")
  = (fallback_log ("/out/" +:+ CTTH_nc)
                  ("/CF/2/norrkoping/polar/direct_readout/ file " +:+ CTTH_nc),
     [("put", "/CF/2/norrkoping/polar/direct_readout/ file " +:+ CTTH_nc);
      ("send", "/CF/2/norrkoping/polar/direct_readout/ file " +:+ CTTH_nc)],
     Raise (OtherError "not connected")).
Proof.
  refine (proj2 (publish_put_failure_falls_back_to_send
                   sample_trollsift sample_encode broken_queue (Some "norrkoping")
                   input_data_l1c scene_noaa19 ("/out/" +:+ CTTH_nc)
                   ["/out/" +:+ CTTH_statistics_xml]
                   ("/CF/2/norrkoping/polar/direct_readout/ file " +:+ CTTH_nc) []
                   [("put", "/CF/2/norrkoping/polar/direct_readout/ file " +:+ CTTH_nc)]
                   (OtherError "queue full") _ _) _ _ _);
    vm_compute; reflexivity.
Defined.
